(** * Argument synthesis of bake-action (src/context.ts)

    A shallow embedding of [getArgs], [getBakeArgs], [getCommonArgs],
    [getSourceInput] and [noDefaultAttestations].  The [inputs] object is
    shared by reference between [getArgs] and [getBakeArgs], and
    [getBakeArgs] pushes onto [inputs.allow] in place: the code is therefore
    modelled in a small state and error monad whose state is the [Inputs]
    record, so that a throw keeps the mutation already performed and a
    second call sees the mutated record. *)

From Stdlib Require Import String Ascii List Bool Arith Lia.
Import ListNotations.
Open Scope string_scope.
Open Scope list_scope.

(** ** Data model *)

(** [export interface Inputs] *)
Record Inputs := mkInputs {
  builder : string;
  workdir : string;
  source : string;
  allow : list string;
  call : string;
  files : list string;
  no_cache : bool;
  pull : bool;
  load : bool;
  provenance : string;
  push : bool;
  sbom : string;
  set : list string;
  targets : list string;
  github_token : string
}.

(** JavaScript truthiness of a string: only [""] is falsy. *)
Definition truthy (s : string) : bool := negb (String.eqb s "").

(** [inputs.allow.push(x)]: the only field written by the code. *)
Definition push_allow (x : string) (i : Inputs) : Inputs :=
  {| builder := builder i; workdir := workdir i; source := source i;
     allow := allow i ++ [x]; call := call i; files := files i;
     no_cache := no_cache i; pull := pull i; load := load i;
     provenance := provenance i; push := push i; sbom := sbom i;
     set := set i; targets := targets i; github_token := github_token i |}.

(** The outcome of code that may throw. *)
Inductive result (A : Type) : Type :=
| Ok (a : A)
| Error (msg : string).
Arguments Ok {A} a.
Arguments Error {A} msg.

(** ** Capability oracles

    [toolkit.buildx.versionSatisfies('>=x.y.z')] and
    [toolkit.buildkit.versionSatisfies(builder, '>=x.y.z')] compare the
    detected version against a lower bound; versions are ordered
    lexicographically. *)
Record version := mkVersion { major : nat; minor : nat; patch : nat }.

Definition version_ge (v c : version) : bool :=
  if Nat.ltb (major c) (major v) then true
  else if Nat.ltb (major v) (major c) then false
  else if Nat.ltb (minor c) (minor v) then true
  else if Nat.ltb (minor v) (minor c) then false
  else Nat.leb (patch c) (patch v).

Definition v0_6_0 := mkVersion 0 6 0.
Definition v0_10_0 := mkVersion 0 10 0.
Definition v0_11_0 := mkVersion 0 11 0.
Definition v0_16_0 := mkVersion 0 16 0.
Definition v0_17_0 := mkVersion 0 17 0.
Definition v0_18_0 := mkVersion 0 18 0.

(** The [toolkit] argument, reduced to what [getBakeArgs] queries. *)
Record Toolkit := mkToolkit {
  buildx_version : version;
  buildkit_version : string -> version;
  tmpDir : string               (* Context.tmpDir() *)
}.

(** [toolkit.buildxBake.getMetadataFilePath()]: [bake-metadata.json] in the
    toolkit's temporary directory. *)
Definition getMetadataFilePath (tk : Toolkit) : string :=
  String.append (tmpDir tk) "/bake-metadata.json".

Definition buildx_versionSatisfies (tk : Toolkit) (c : version) : bool :=
  version_ge (buildx_version tk) c.

Definition buildkit_versionSatisfies (tk : Toolkit) (b : string) (c : version)
  : bool := version_ge (buildkit_version tk b) c.

(** Ambient state read by [getBakeArgs]: the process environment, the GitHub
    event payload and the toolkit helpers it calls. *)
Record Ambient := mkAmbient {
  env_BUILDX_NO_DEFAULT_ATTESTATIONS : option string;
  repository_private : option (option bool);   (* payload.repository?.private *)
  resolveProvenanceAttrs : string -> string    (* Build.resolveProvenanceAttrs *)
}.

(** [Util.parseBool(str)]: Go's [strconv.ParseBool] spellings, anything
    else throws. *)
Definition parseBool (str : string) : result bool :=
  if existsb (String.eqb str) ["1"; "t"; "T"; "true"; "TRUE"; "True"]
  then Ok true
  else if existsb (String.eqb str) ["0"; "f"; "F"; "false"; "FALSE"; "False"]
  then Ok false
  else Error (String.append "parseBool syntax error: " str).

(** [function noDefaultAttestations()]: an unset or empty variable gives
    [false], any other value goes through [Util.parseBool], which may
    throw. *)
Definition noDefaultAttestations (amb : Ambient) : result bool :=
  match env_BUILDX_NO_DEFAULT_ATTESTATIONS amb with
  | Some v => if truthy v then parseBool v else Ok false
  | None => Ok false
  end.

(** [GitHub.context.payload.repository?.private ?? false] *)
Definition repo_private (amb : Ambient) : bool :=
  match repository_private amb with
  | Some (Some b) => b
  | _ => false
  end.

(** ** A state and error monad over the shared [inputs] object *)

Definition M (A : Type) : Type := Inputs -> Inputs * result A.

Definition ret {A} (a : A) : M A := fun s => (s, Ok a).

Definition bind {A B} (m : M A) (k : A -> M B) : M B :=
  fun s => match m s with
           | (s', Ok a) => k a s'
           | (s', Error e) => (s', Error e)
           end.

Definition get : M Inputs := fun s => (s, Ok s).

Definition modify (f : Inputs -> Inputs) : M unit := fun s => (f s, Ok tt).

Definition throw {A} (msg : string) : M A := fun s => (s, Error msg).

(** A call that returns or throws without touching [inputs]. *)
Definition lift {A} (r : result A) : M A := fun s => (s, r).

Notation "x <- m ;; k" := (bind m (fun x => k))
  (at level 61, m at next level, right associativity).

(** [await Util.asyncForEach(xs, async x => { args.push(flag, x); })] *)
Definition flag_pairs (flag : string) (xs : list string) : list string :=
  flat_map (fun x => [flag; x]) xs.

Section Synthesis.

(** The bake definition is only queried through [Bake.hasDockerExporter]. *)
Context {BakeDefinition : Type}.
Variable hasDockerExporter : BakeDefinition -> bool -> bool.

(** [async function getBakeArgs(inputs, definition, toolkit)] *)
Definition getBakeArgs (definition : BakeDefinition) (toolkit : Toolkit)
  (amb : Ambient) : M (list string) :=
  inputs <- get ;;
  let args := ["bake"] in
  let args := if truthy (source inputs) then args ++ [source inputs] else args in
  args <- (if buildx_versionSatisfies toolkit v0_17_0 then
             _ <- (if buildx_versionSatisfies toolkit v0_18_0
                   then modify (push_allow "fs=*") else ret tt) ;;
             inputs <- get ;;
             ret (args ++ flag_pairs "--allow" (allow inputs))
           else ret args) ;;
  inputs <- get ;;
  args <- (if truthy (call inputs) then
             if negb (buildx_versionSatisfies toolkit v0_16_0)
             then throw "Buildx >= 0.16.0 is required to use the call flag."
             else ret (args ++ ["--call"; call inputs])
           else ret args) ;;
  let args := args ++ flag_pairs "--file" (files inputs) in
  let args := args ++ flag_pairs "--set" (set inputs) in
  let args := if buildx_versionSatisfies toolkit v0_6_0
              then args ++ ["--metadata-file"; getMetadataFilePath toolkit]
              else args in
  args <- (if buildx_versionSatisfies toolkit v0_10_0 then
             args <- (if truthy (provenance inputs) then
                        ret (args ++ ["--provenance"; provenance inputs])
                      else
                        nda <- lift (noDefaultAttestations amb) ;;
                        if negb nda
                           && buildkit_versionSatisfies toolkit (builder inputs)
                                v0_11_0
                           && negb (hasDockerExporter definition (load inputs))
                        then
                          if repo_private amb
                          then ret (args ++ ["--provenance";
                                  resolveProvenanceAttrs amb
                                    "mode=min,inline-only=true"])
                          else ret (args ++ ["--provenance";
                                  resolveProvenanceAttrs amb "mode=max"])
                        else ret args) ;;
             ret (if truthy (sbom inputs) then args ++ ["--sbom"; sbom inputs]
                  else args)
           else ret args) ;;
  ret args.

(** [async function getCommonArgs(inputs)] *)
Definition getCommonArgs (inputs : Inputs) : list string :=
  let args := @nil string in
  let args := if no_cache inputs then args ++ ["--no-cache"] else args in
  let args := if truthy (builder inputs)
              then args ++ ["--builder"; builder inputs] else args in
  let args := if pull inputs then args ++ ["--pull"] else args in
  let args := if load inputs then args ++ ["--load"] else args in
  let args := if push inputs then args ++ ["--push"] else args in
  args.

(** [async function getArgs(inputs, definition, toolkit)]: the spread of
    [getBakeArgs], then [getCommonArgs] and [inputs.targets], both read
    from the (possibly mutated) shared [inputs] object. *)
Definition getArgs (definition : BakeDefinition) (toolkit : Toolkit)
  (amb : Ambient) : M (list string) :=
  bakeArgs <- getBakeArgs definition toolkit amb ;;
  inputs <- get ;;
  ret (bakeArgs ++ getCommonArgs inputs ++ targets inputs).

End Synthesis.

(** ** Source resolution *)

(** [function getSourceInput(name)]: [render tpl ctx] stands for
    [handlebars.compile(tpl)({defaultContext: ctx})], which may throw; the
    code has no [try], so a throw leaves [getSourceInput]. *)
Definition getSourceInput (render : string -> string -> result string)
  (raw gitContext : string) : result string :=
  match render raw gitContext with
  | Error e => Error e
  | Ok rendered =>
      let source := if negb (truthy rendered) then gitContext else rendered in
      let source := if String.eqb source "." then "" else source in
      Ok source
  end.

(** ** Reading the inputs *)

(** [result] as an error monad, for the readers that throw. *)
Definition rbind {A B} (r : result A) (k : A -> result B) : result B :=
  match r with
  | Ok a => k a
  | Error e => Error e
  end.

(** The options [Util.getInputList] is called with. *)
Record InputListOpts := mkInputListOpts {
  ignoreComma : bool;
  quote : bool
}.

(** The action's input readers: [core.getInput] (already trimmed),
    [Util.getInputList] and [Build.getProvenanceInput], which may throw, and
    the ambient [Context.gitContext()] with the Handlebars renderer. *)
Record ActionEnv := mkActionEnv {
  getInput : string -> string;
  getInputList : string -> option InputListOpts -> result (list string);
  getProvenanceInput : string -> result string;
  gitContext : string;
  render : string -> string -> result string
}.

(** [core.getBooleanInput(name)]: only the YAML 1.2 core spellings are
    accepted, anything else throws a [TypeError] naming the input. *)
Definition getBooleanInput (env : ActionEnv) (name : string) : result bool :=
  let val := getInput env name in
  if existsb (String.eqb val) ["true"; "True"; "TRUE"] then Ok true
  else if existsb (String.eqb val) ["false"; "False"; "FALSE"] then Ok false
  else Error (String.append
                "Input does not meet YAML 1.2 Core Schema specification: " name).

(** [async function getInputs()]: the object literal is evaluated field by
    field, so the first reader that throws decides the error. *)
Definition getInputs (env : ActionEnv) : result Inputs :=
  let builder := getInput env "builder" in
  let workdir := if truthy (getInput env "workdir")
                 then getInput env "workdir" else "." in
  rbind (getSourceInput (render env) (getInput env "source") (gitContext env))
    (fun source =>
  rbind (getInputList env "allow" None) (fun allow =>
  let call := getInput env "call" in
  rbind (getInputList env "files" None) (fun files =>
  rbind (getBooleanInput env "no-cache") (fun no_cache =>
  rbind (getBooleanInput env "pull") (fun pull =>
  rbind (getBooleanInput env "load") (fun load =>
  rbind (getProvenanceInput env "provenance") (fun provenance =>
  rbind (getBooleanInput env "push") (fun push =>
  let sbom := getInput env "sbom" in
  rbind (getInputList env "set" (Some (mkInputListOpts true false))) (fun set =>
  rbind (getInputList env "targets" None) (fun targets =>
  let github_token := getInput env "github-token" in
  Ok {| builder := builder; workdir := workdir; source := source;
        allow := allow; call := call; files := files; no_cache := no_cache;
        pull := pull; load := load; provenance := provenance; push := push;
        sbom := sbom; set := set; targets := targets;
        github_token := github_token |})))))))))).

(** [inputs] with other [workdir] and [github-token] values. *)
Definition with_workdir_token (wd tok : string) (i : Inputs) : Inputs :=
  {| builder := builder i; workdir := wd; source := source i;
     allow := allow i; call := call i; files := files i;
     no_cache := no_cache i; pull := pull i; load := load i;
     provenance := provenance i; push := push i; sbom := sbom i;
     set := set i; targets := targets i; github_token := tok |}.

(** ** Segments of the bake arguments

    The successive [args.push] blocks of [getBakeArgs], named so that the
    normal form below can state where each one lands in the output. *)
Section Segments.

Context {BakeDefinition : Type}.
Variable hasDockerExporter : BakeDefinition -> bool -> bool.

(** The shared record after [getBakeArgs]: [fs=*] pushed under both gates. *)
Definition state_after (tk : Toolkit) (i : Inputs) : Inputs :=
  if buildx_versionSatisfies tk v0_17_0 && buildx_versionSatisfies tk v0_18_0
  then push_allow "fs=*" i else i.

Definition source_args (i : Inputs) : list string :=
  if truthy (source i) then [source i] else [].

Definition allow_args (tk : Toolkit) (i : Inputs) : list string :=
  if buildx_versionSatisfies tk v0_17_0
  then flag_pairs "--allow" (allow (state_after tk i)) else [].

Definition call_args (i : Inputs) : list string :=
  if truthy (call i) then ["--call"; call i] else [].

Definition file_set_metadata_args (tk : Toolkit) (i : Inputs) : list string :=
  flag_pairs "--file" (files i) ++ flag_pairs "--set" (set i)
  ++ (if buildx_versionSatisfies tk v0_6_0
      then ["--metadata-file"; getMetadataFilePath tk] else []).

(** Everything [getBakeArgs] pushes before its attestation block. *)
Definition args_before_attestations (tk : Toolkit) (i : Inputs) : list string :=
  "bake" :: source_args i ++ allow_args tk i ++ call_args i
  ++ file_set_metadata_args tk i.

(** The value [noDefaultAttestations] returns when it does not throw. *)
Definition opt_out (amb : Ambient) : bool :=
  match noDefaultAttestations amb with
  | Ok b => b
  | Error _ => false
  end.

(** The throw of [noDefaultAttestations], reached only with an empty
    [provenance] on a Buildx of at least 0.10.0. *)
Definition attestation_error (tk : Toolkit) (amb : Ambient) (i : Inputs)
  : option string :=
  if buildx_versionSatisfies tk v0_10_0 && negb (truthy (provenance i)) then
    match noDefaultAttestations amb with
    | Ok _ => None
    | Error e => Some e
    end
  else None.

(** The gate of the default provenance. *)
Definition default_provenance_gate (d : BakeDefinition) (tk : Toolkit)
  (amb : Ambient) (i : Inputs) : bool :=
  negb (opt_out amb)
  && buildkit_versionSatisfies tk (builder i) v0_11_0
  && negb (hasDockerExporter d (load i)).

Definition default_provenance_args (d : BakeDefinition) (tk : Toolkit)
  (amb : Ambient) (i : Inputs) : list string :=
  if default_provenance_gate d tk amb i then
    ["--provenance";
     resolveProvenanceAttrs amb
       (if repo_private amb then "mode=min,inline-only=true" else "mode=max")]
  else [].

Definition provenance_args (d : BakeDefinition) (tk : Toolkit)
  (amb : Ambient) (i : Inputs) : list string :=
  if buildx_versionSatisfies tk v0_10_0 then
    if truthy (provenance i) then ["--provenance"; provenance i]
    else default_provenance_args d tk amb i
  else [].

Definition sbom_args (tk : Toolkit) (i : Inputs) : list string :=
  if buildx_versionSatisfies tk v0_10_0 && truthy (sbom i)
  then ["--sbom"; sbom i] else [].

End Segments.

(** [flag_values flag args]: the values that follow the token [flag] in
    [args], reading [args] left to right as flag/value pairs. *)
Fixpoint flag_values (flag : string) (args : list string) : list string :=
  match args with
  | [] => []
  | f :: rest =>
      if String.eqb f flag then
        match rest with
        | v :: rest' => v :: flag_values flag rest'
        | [] => []
        end
      else flag_values flag rest
  end.

(** ** Concrete instances *)

(** A fragment of [handlebars.compile(tpl)(vars)]: [{{name}}] renders the
    variable [name] ([defaultContext] is the only one bound, others render
    as the empty string), other characters are copied, and a [{{] that is
    never closed is a parse error, thrown. *)
Fixpoint mustache_name (s : string) : option (string * string) :=
  match s with
  | EmptyString => None
  | String "}"%char (String "}"%char rest) => Some (EmptyString, rest)
  | String c rest =>
      match mustache_name rest with
      | Some (n, r) => Some (String c n, r)
      | None => None
      end
  end.

Fixpoint mustache_render_fuel (fuel : nat) (tpl ctx : string) : result string :=
  match fuel with
  | 0 => Ok EmptyString
  | S f =>
      match tpl with
      | EmptyString => Ok EmptyString
      | String "{"%char (String "{"%char rest) =>
          match mustache_name rest with
          | None => Error "Parse error: unclosed mustache"
          | Some (name, rest') =>
              match mustache_render_fuel f rest' ctx with
              | Ok r =>
                  Ok (String.append
                        (if String.eqb name "defaultContext" then ctx else "") r)
              | Error e => Error e
              end
          end
      | String c rest =>
          match mustache_render_fuel f rest ctx with
          | Ok r => Ok (String c r)
          | Error e => Error e
          end
      end
  end.

Definition handlebars_render (tpl ctx : string) : result string :=
  mustache_render_fuel (S (String.length tpl)) tpl ctx.

(** The input record of the end-to-end example of the spec. *)
Definition example_inputs (wd : string) : Inputs :=
  {| builder := ""; workdir := wd; source := ""; allow := []; call := "";
     files := ["docker-bake.hcl"]; no_cache := false; pull := false;
     load := true; provenance := ""; push := false; sbom := ""; set := [];
     targets := ["app"]; github_token := "" |}.

(** The same record with another [allow], [call] and [targets]. *)
Definition inputs_with (al : list string) (cl : string) (tg : list string)
  : Inputs :=
  {| builder := ""; workdir := "."; source := ""; allow := al; call := cl;
     files := ["docker-bake.hcl"]; no_cache := false; pull := false;
     load := true; provenance := ""; push := false; sbom := ""; set := [];
     targets := tg; github_token := "" |}.

(** [inputs] with its [allow] list replaced. *)
Definition with_allow (al : list string) (i : Inputs) : Inputs :=
  {| builder := builder i; workdir := workdir i; source := source i;
     allow := al; call := call i; files := files i;
     no_cache := no_cache i; pull := pull i; load := load i;
     provenance := provenance i; push := push i; sbom := sbom i;
     set := set i; targets := targets i; github_token := github_token i |}.

Definition toolkit_at (bx : version) : Toolkit :=
  mkToolkit bx (fun _ => mkVersion 0 11 0) "/tmp/docker-actions-toolkit".

(** A repository visibility and an opt-out variable, with an identity
    attribute resolver. *)
Definition ambient_with (priv : option (option bool)) (optout : option string)
  : Ambient :=
  mkAmbient optout priv
    (fun attrs => attrs).

(** A bake definition reduced to the answer of [Bake.hasDockerExporter]. *)
Definition exporter_flag (uses_docker : bool) (load : bool) : bool :=
  uses_docker && load.

(** [inputs] with other [provenance] and [sbom] values. *)
Definition with_provenance_sbom (pv sb : string) (i : Inputs) : Inputs :=
  {| builder := builder i; workdir := workdir i; source := source i;
     allow := allow i; call := call i; files := files i;
     no_cache := no_cache i; pull := pull i; load := load i;
     provenance := pv; push := push i; sbom := sb;
     set := set i; targets := targets i; github_token := github_token i |}.

(** [inputs] with another [load] value. *)
Definition with_load (ld : bool) (i : Inputs) : Inputs :=
  {| builder := builder i; workdir := workdir i; source := source i;
     allow := allow i; call := call i; files := files i;
     no_cache := no_cache i; pull := pull i; load := ld;
     provenance := provenance i; push := push i; sbom := sbom i;
     set := set i; targets := targets i; github_token := github_token i |}.

(** A reader environment answering from an association list, with
    Handlebars for the source template. *)
Definition env_of (kv : list (string * string)) (ctx : string) : ActionEnv :=
  let lookup n := match find (fun p => String.eqb (fst p) n) kv with
                  | Some (_, v) => v
                  | None => ""
                  end in
  mkActionEnv lookup
    (fun n _ => if truthy (lookup n) then Ok [lookup n] else Ok [])
    (fun n => Ok (lookup n)) ctx handlebars_render.

(** ** Lemmas *)

Lemma version_ge_trans (v c1 c2 : version) :
  version_ge v c1 = true -> version_ge c1 c2 = true -> version_ge v c2 = true.
Proof.
  destruct v as [a b c], c1 as [a1 b1 c1], c2 as [a2 b2 c2].
  unfold version_ge; simpl.
  repeat match goal with
         | |- context [Nat.ltb ?x ?y] => destruct (Nat.ltb_spec x y)
         | |- context [Nat.leb ?x ?y] => destruct (Nat.leb_spec x y)
         end; intros; try discriminate; try reflexivity; lia.
Qed.

Lemma buildx_18_17 (tk : Toolkit) :
  buildx_versionSatisfies tk v0_18_0 = true ->
  buildx_versionSatisfies tk v0_17_0 = true.
Proof. intro H. apply (version_ge_trans _ v0_18_0); [exact H | reflexivity]. Qed.

Lemma buildx_18_16 (tk : Toolkit) :
  buildx_versionSatisfies tk v0_18_0 = true ->
  buildx_versionSatisfies tk v0_16_0 = true.
Proof. intro H. apply (version_ge_trans _ v0_18_0); [exact H | reflexivity]. Qed.

Lemma buildx_18_10 (tk : Toolkit) :
  buildx_versionSatisfies tk v0_18_0 = true ->
  buildx_versionSatisfies tk v0_10_0 = true.
Proof. intro H. apply (version_ge_trans _ v0_18_0); [exact H | reflexivity]. Qed.

Lemma buildx_18_6 (tk : Toolkit) :
  buildx_versionSatisfies tk v0_18_0 = true ->
  buildx_versionSatisfies tk v0_6_0 = true.
Proof. intro H. apply (version_ge_trans _ v0_18_0); [exact H | reflexivity]. Qed.

Lemma push_allow_fields (x : string) (i : Inputs) :
  source (push_allow x i) = source i /\ call (push_allow x i) = call i /\
  files (push_allow x i) = files i /\ set (push_allow x i) = set i /\
  provenance (push_allow x i) = provenance i /\ sbom (push_allow x i) = sbom i /\
  builder (push_allow x i) = builder i /\ load (push_allow x i) = load i /\
  targets (push_allow x i) = targets i.
Proof. repeat split. Qed.

Lemma getCommonArgs_push_allow (x : string) (i : Inputs) :
  getCommonArgs (push_allow x i) = getCommonArgs i.
Proof. reflexivity. Qed.

Lemma targets_state_after (tk : Toolkit) (i : Inputs) :
  targets (state_after tk i) = targets i.
Proof. unfold state_after; destruct (_ && _); reflexivity. Qed.

Lemma getCommonArgs_state_after (tk : Toolkit) (i : Inputs) :
  getCommonArgs (state_after tk i) = getCommonArgs i.
Proof. unfold state_after; destruct (_ && _); reflexivity. Qed.

Section NormalForm.

Context {BakeDefinition : Type}.
Variable hasDockerExporter : BakeDefinition -> bool -> bool.

(** [getBakeArgs] as one expression: the mutated record, and either the
    [call] error, the throw of [noDefaultAttestations], or the concatenation
    of the pushed segments. *)
Lemma getBakeArgs_normal_form (d : BakeDefinition) (tk : Toolkit)
  (amb : Ambient) (i : Inputs) :
  getBakeArgs hasDockerExporter d tk amb i =
  (state_after tk i,
   if truthy (call i) && negb (buildx_versionSatisfies tk v0_16_0)
   then Error "Buildx >= 0.16.0 is required to use the call flag."
   else match attestation_error tk amb i with
        | Some e => Error e
        | None => Ok (args_before_attestations tk i
                      ++ provenance_args hasDockerExporter d tk amb i
                      ++ sbom_args tk i)
        end).
Proof.
  unfold getBakeArgs, args_before_attestations, allow_args, state_after,
    source_args, call_args, file_set_metadata_args, provenance_args,
    default_provenance_args, default_provenance_gate, sbom_args,
    attestation_error, opt_out, bind, get, modify, ret, throw, lift.
  simpl.
  repeat (match goal with
          | |- context [if ?b then _ else _] => destruct b eqn:?
          | |- context [match noDefaultAttestations ?a with _ => _ end] =>
              destruct (noDefaultAttestations a) eqn:?
          end; simpl);
  try discriminate;
  repeat rewrite <- app_assoc; simpl; repeat rewrite <- app_assoc;
  rewrite ?app_nil_r; reflexivity.
Qed.

Lemma getArgs_normal_form (d : BakeDefinition) (tk : Toolkit)
  (amb : Ambient) (i : Inputs) :
  getArgs hasDockerExporter d tk amb i =
  (state_after tk i,
   if truthy (call i) && negb (buildx_versionSatisfies tk v0_16_0)
   then Error "Buildx >= 0.16.0 is required to use the call flag."
   else match attestation_error tk amb i with
        | Some e => Error e
        | None => Ok (args_before_attestations tk i
                      ++ provenance_args hasDockerExporter d tk amb i
                      ++ sbom_args tk i ++ getCommonArgs i ++ targets i)
        end).
Proof.
  unfold getArgs. unfold bind at 1. rewrite getBakeArgs_normal_form.
  destruct (_ && _); [reflexivity|].
  destruct (attestation_error tk amb i); [reflexivity|].
  unfold get, bind, ret.
  rewrite getCommonArgs_state_after, targets_state_after.
  repeat rewrite <- app_assoc. reflexivity.
Qed.

End NormalForm.

Lemma truthy_true_iff (s : string) : truthy s = true <-> s <> "".
Proof.
  unfold truthy. rewrite negb_true_iff, String.eqb_neq. tauto.
Qed.

Lemma truthy_false_iff (s : string) : truthy s = false <-> s = "".
Proof.
  unfold truthy. rewrite negb_false_iff, String.eqb_eq. tauto.
Qed.

Lemma string_length_append (a b : string) :
  String.length (String.append a b) = String.length a + String.length b.
Proof. induction a as [|c a IH]; simpl; [reflexivity | now rewrite IH]. Qed.

Lemma getMetadataFilePath_not_flag (tk : Toolkit) (flag : string) :
  String.length flag < 19 -> getMetadataFilePath tk <> flag.
Proof.
  intros Hl He. unfold getMetadataFilePath in He.
  apply (f_equal String.length) in He.
  rewrite string_length_append in He. simpl in He. lia.
Qed.

Lemma state_after_18 (tk : Toolkit) (i : Inputs) :
  state_after tk i =
  if buildx_versionSatisfies tk v0_18_0 then push_allow "fs=*" i else i.
Proof.
  unfold state_after.
  destruct (buildx_versionSatisfies tk v0_18_0) eqn:H18.
  - rewrite (buildx_18_17 tk H18). reflexivity.
  - rewrite andb_false_r. reflexivity.
Qed.

(** ** Claims *)

(** C1: on the end-to-end example of the spec (files [docker-bake.hcl],
    [load], target [app], everything else empty or false), with Buildx at
    least 0.6.0, 0.10.0, 0.16.0, 0.17.0 and 0.18.0, BuildKit at least
    0.11.0, the opt-out unset, a definition that uses the docker exporter
    under [load] and a public repository, [getArgs] returns exactly
    [bake --allow fs=* --file docker-bake.hcl --metadata-file <path> --load app]
    and no [--provenance] token. *)
Theorem getArgs_end_to_end_example {BakeDefinition : Type}
  (hasDockerExporter : BakeDefinition -> bool -> bool) (d : BakeDefinition)
  (tk : Toolkit) (amb : Ambient) (wd : string)
  (H6 : buildx_versionSatisfies tk v0_6_0 = true)
  (H10 : buildx_versionSatisfies tk v0_10_0 = true)
  (H16 : buildx_versionSatisfies tk v0_16_0 = true)
  (H17 : buildx_versionSatisfies tk v0_17_0 = true)
  (H18 : buildx_versionSatisfies tk v0_18_0 = true)
  (Hbk : buildkit_versionSatisfies tk "" v0_11_0 = true)
  (Hopt : noDefaultAttestations amb = Ok false)
  (Hexp : hasDockerExporter d true = true)
  (Hpub : repository_private amb = Some (Some false)) :
  exists out,
    snd (getArgs hasDockerExporter d tk amb (example_inputs wd)) = Ok out /\
    out = ["bake"; "--allow"; "fs=*"; "--file"; "docker-bake.hcl";
           "--metadata-file"; getMetadataFilePath tk; "--load"; "app"] /\
    ~ In "--provenance" out.
Proof.
  rewrite getArgs_normal_form. simpl.
  unfold args_before_attestations, source_args, allow_args, call_args,
    file_set_metadata_args, provenance_args, default_provenance_args,
    default_provenance_gate, sbom_args, attestation_error, opt_out.
  rewrite state_after_18, H18, H17, H6, H10. simpl.
  rewrite Hopt, Hbk, Hexp. simpl.
  eexists. split; [reflexivity|]. split; [reflexivity|].
  simpl. intros Hin.
  repeat destruct Hin as [Hin | Hin]; try discriminate; try exact Hin.
  exact (getMetadataFilePath_not_flag tk "--provenance" ltac:(simpl; lia) Hin).
Qed.

Lemma getArgs_end_to_end_example_witness :
  exists out,
    snd (getArgs exporter_flag true (toolkit_at (mkVersion 0 18 0))
           (ambient_with (Some (Some false)) None) (example_inputs ".")) = Ok out /\
    out = ["bake"; "--allow"; "fs=*"; "--file"; "docker-bake.hcl";
           "--metadata-file"; "/tmp/docker-actions-toolkit/bake-metadata.json"; "--load"; "app"] /\
    ~ In "--provenance" out.
Proof.
  apply (getArgs_end_to_end_example exporter_flag true
           (toolkit_at (mkVersion 0 18 0))
           (ambient_with (Some (Some false)) None) ".");
    reflexivity.
Defined.

(** C2: whenever [getArgs] succeeds, its output is the output of
    [getBakeArgs], then [getCommonArgs] of the input record, then the
    [targets] of the input record appended as they are. *)
Theorem getArgs_three_phases {BakeDefinition : Type}
  (hasDockerExporter : BakeDefinition -> bool -> bool) (d : BakeDefinition)
  (tk : Toolkit) (amb : Ambient) (i i' : Inputs) (out : list string)
  (H : getArgs hasDockerExporter d tk amb i = (i', Ok out)) :
  exists bakeArgs,
    snd (getBakeArgs hasDockerExporter d tk amb i) = Ok bakeArgs /\
    out = bakeArgs ++ getCommonArgs i ++ targets i.
Proof.
  rewrite getArgs_normal_form in H.
  rewrite getBakeArgs_normal_form. simpl.
  destruct (truthy (call i) && negb (buildx_versionSatisfies tk v0_16_0));
    try destruct (attestation_error tk amb i) eqn:Hatt;
    inversion H; subst.
  eexists. split; [reflexivity|].
  unfold args_before_attestations. simpl.
  repeat rewrite <- app_assoc. reflexivity.
Qed.

Lemma getArgs_three_phases_witness :
  exists bakeArgs,
    snd (getBakeArgs exporter_flag true (toolkit_at (mkVersion 0 18 0))
           (ambient_with (Some (Some false)) None) (example_inputs ".")) =
      Ok bakeArgs /\
    ["bake"; "--allow"; "fs=*"; "--file"; "docker-bake.hcl";
     "--metadata-file"; "/tmp/docker-actions-toolkit/bake-metadata.json"; "--load"; "app"] =
      bakeArgs ++ getCommonArgs (example_inputs ".")
               ++ targets (example_inputs ".").
Proof.
  apply (getArgs_three_phases exporter_flag true
           (toolkit_at (mkVersion 0 18 0))
           (ambient_with (Some (Some false)) None) (example_inputs ".")
           (push_allow "fs=*" (example_inputs "."))).
  vm_compute. reflexivity.
Defined.

(** C3 (as stated): [getArgs] fails if and only if [call] is non-empty and
    Buildx is below 0.16.0.  It also fails with an empty [call]: with an empty
    [provenance] on Buildx 0.10.0 or later, [noDefaultAttestations] passes a
    [BUILDX_NO_DEFAULT_ATTESTATIONS] value such as [yes] to [Util.parseBool],
    which throws. *)
Lemma call_gate_parseBool_counterexample :
  call (inputs_with [] "" ["app"]) = "" /\
  snd (getArgs exporter_flag true (toolkit_at (mkVersion 0 18 0))
         (ambient_with (Some (Some false)) (Some "yes"))
         (inputs_with [] "" ["app"])) = Error "parseBool syntax error: yes".
Proof. split; [reflexivity | vm_compute; reflexivity]. Defined.

(** C3 (amended): a non-empty [call] on a Buildx below 0.16.0 makes
    [getArgs] fail with the call-flag error.  Apart from that case, [getArgs]
    fails exactly when Buildx is at least 0.10.0, [provenance] is empty and
    [noDefaultAttestations] throws, with its error; it throws exactly when
    [BUILDX_NO_DEFAULT_ATTESTATIONS] is a non-empty value that
    [Util.parseBool] rejects.  When [call] is non-empty, Buildx is at least
    0.16.0 and synthesis succeeds, [--call] followed by the value of [call]
    is in the output. *)
Theorem getArgs_failure_causes {BakeDefinition : Type}
  (hasDockerExporter : BakeDefinition -> bool -> bool) (d : BakeDefinition)
  (tk : Toolkit) (amb : Ambient) (i : Inputs) :
  (call i <> "" -> buildx_versionSatisfies tk v0_16_0 = false ->
     snd (getArgs hasDockerExporter d tk amb i) =
       Error "Buildx >= 0.16.0 is required to use the call flag.") /\
  (~ (call i <> "" /\ buildx_versionSatisfies tk v0_16_0 = false) ->
     forall e,
       snd (getArgs hasDockerExporter d tk amb i) = Error e <->
       (buildx_versionSatisfies tk v0_10_0 = true /\ provenance i = "" /\
        noDefaultAttestations amb = Error e)) /\
  (forall e,
     noDefaultAttestations amb = Error e <->
     exists v, env_BUILDX_NO_DEFAULT_ATTESTATIONS amb = Some v /\ v <> "" /\
               parseBool v = Error e) /\
  (call i <> "" -> buildx_versionSatisfies tk v0_16_0 = true ->
     forall out, snd (getArgs hasDockerExporter d tk amb i) = Ok out ->
       exists pre post, out = pre ++ ["--call"; call i] ++ post).
Proof.
  split; [| split; [| split]].
  - intros Hc H16. apply truthy_true_iff in Hc.
    rewrite getArgs_normal_form. simpl. rewrite Hc, H16. reflexivity.
  - intros Hnot e. rewrite getArgs_normal_form. simpl.
    assert (Hcall : truthy (call i) && negb (buildx_versionSatisfies tk v0_16_0)
                    = false).
    { destruct (truthy (call i)) eqn:Hc;
        destruct (buildx_versionSatisfies tk v0_16_0) eqn:H16;
        try reflexivity.
      exfalso. apply Hnot. split; [apply truthy_true_iff; exact Hc | reflexivity]. }
    rewrite Hcall. unfold attestation_error.
    destruct (buildx_versionSatisfies tk v0_10_0) eqn:H10;
      destruct (truthy (provenance i)) eqn:Hp; simpl;
      [ | destruct (noDefaultAttestations amb) as [b|e0] eqn:Hn | | ].
    + split; intros Hx; [discriminate|].
      destruct Hx as [_ [Hpe _]]. apply truthy_false_iff in Hpe. congruence.
    + split; intros Hx; [discriminate|].
      destruct Hx as [_ [_ He]]. discriminate.
    + split; intros Hx.
      * inversion Hx; subst.
        split; [reflexivity | split; [apply truthy_false_iff; exact Hp
                                     | reflexivity]].
      * destruct Hx as [_ [_ He]]. inversion He. reflexivity.
    + split; intros Hx; [discriminate|]. destruct Hx. discriminate.
    + split; intros Hx; [discriminate|]. destruct Hx. discriminate.
  - intros e. unfold noDefaultAttestations.
    destruct (env_BUILDX_NO_DEFAULT_ATTESTATIONS amb) as [v|].
    + destruct (truthy v) eqn:Hv; split; intros Hx.
      * exists v. split; [reflexivity|].
        split; [apply truthy_true_iff; exact Hv | exact Hx].
      * destruct Hx as [w [Hw [_ Hpb]]]. inversion Hw; subst. exact Hpb.
      * discriminate.
      * destruct Hx as [w [Hw [Hne _]]]. inversion Hw; subst.
        apply truthy_true_iff in Hne. congruence.
    + split; intros Hx; [discriminate|].
      destruct Hx as [w [Hw _]]. discriminate.
  - intros Hc H16 out Hok. apply truthy_true_iff in Hc.
    rewrite getArgs_normal_form in Hok. simpl in Hok.
    rewrite Hc, H16 in Hok. simpl in Hok.
    destruct (attestation_error tk amb i); inversion Hok; subst.
    exists ("bake" :: source_args i ++ allow_args tk i).
    eexists.
    unfold args_before_attestations, call_args. rewrite Hc.
    simpl. repeat rewrite <- app_assoc. reflexivity.
Qed.

(** C10: [getArgs] writes no field of the input record but [allow], and to
    [allow] it only appends one trailing [fs=*], exactly when Buildx is at
    least 0.18.0 (whether or not synthesis then fails). *)
Theorem getArgs_frame {BakeDefinition : Type}
  (hasDockerExporter : BakeDefinition -> bool -> bool) (d : BakeDefinition)
  (tk : Toolkit) (amb : Ambient) (i : Inputs) :
  fst (getArgs hasDockerExporter d tk amb i) =
  if buildx_versionSatisfies tk v0_18_0 then push_allow "fs=*" i else i.
Proof.
  rewrite getArgs_normal_form. simpl. apply state_after_18.
Qed.

(** C4 (as stated): with Buildx at least 0.18.0, [fs=*] appears exactly once
    among the values of [--allow].  It does not when the user list already
    holds [fs=*]: the pushed entry is a second one. *)
Lemma allow_fs_twice_counterexample :
  exists out,
    buildx_versionSatisfies (toolkit_at (mkVersion 0 18 0)) v0_18_0 = true /\
    snd (getArgs exporter_flag true (toolkit_at (mkVersion 0 18 0))
           (ambient_with (Some (Some false)) None)
           (inputs_with ["fs=*"] "" ["app"])) = Ok out /\
    out = ["bake"; "--allow"; "fs=*"; "--allow"; "fs=*";
           "--file"; "docker-bake.hcl";
           "--metadata-file"; "/tmp/docker-actions-toolkit/bake-metadata.json";
           "--load"; "app"] /\
    count_occ string_dec (flag_values "--allow" out) "fs=*" = 2.
Proof.
  eexists. split; [reflexivity|]. split; [vm_compute; reflexivity|].
  split; reflexivity.
Defined.

(** C4 (amended): with Buildx at least 0.18.0, a successful [getArgs] emits,
    right after [bake] and the source, one [--allow] pair per entry of the
    user [allow] list followed by one more for [fs=*]; so [fs=*] is emitted
    once more than the user list holds it, exactly once when it holds none. *)
Theorem getArgs_allow_fs_appended {BakeDefinition : Type}
  (hasDockerExporter : BakeDefinition -> bool -> bool) (d : BakeDefinition)
  (tk : Toolkit) (amb : Ambient) (i : Inputs) (out : list string)
  (H18 : buildx_versionSatisfies tk v0_18_0 = true)
  (Hok : snd (getArgs hasDockerExporter d tk amb i) = Ok out) :
  out = "bake" :: source_args i ++ flag_pairs "--allow" (allow i ++ ["fs=*"])
        ++ call_args i ++ file_set_metadata_args tk i
        ++ provenance_args hasDockerExporter d tk amb i ++ sbom_args tk i
        ++ getCommonArgs i ++ targets i /\
  count_occ string_dec (allow i ++ ["fs=*"]) "fs=*" =
    S (count_occ string_dec (allow i) "fs=*") /\
  (~ In "fs=*" (allow i) ->
     count_occ string_dec (allow i ++ ["fs=*"]) "fs=*" = 1).
Proof.
  assert (Hcount : count_occ string_dec (allow i ++ ["fs=*"]) "fs=*" =
                   S (count_occ string_dec (allow i) "fs=*")).
  { rewrite count_occ_app. simpl. destruct (string_dec "fs=*" "fs=*");
      [lia | congruence]. }
  split; [| split; [exact Hcount |]].
  - rewrite getArgs_normal_form in Hok. simpl in Hok.
    destruct (truthy (call i) && negb (buildx_versionSatisfies tk v0_16_0));
      try destruct (attestation_error tk amb i) eqn:Hatt;
      inversion Hok; subst.
    unfold args_before_attestations, allow_args.
    rewrite (buildx_18_17 tk H18), state_after_18, H18. simpl.
    repeat rewrite <- app_assoc. reflexivity.
  - intros Hnin. rewrite Hcount.
    apply (count_occ_not_In string_dec) in Hnin. rewrite Hnin. reflexivity.
Qed.

Lemma getArgs_allow_fs_appended_witness :
  ["bake"; "--allow"; "fs=*"; "--allow"; "fs=*";
   "--file"; "docker-bake.hcl";
   "--metadata-file"; "/tmp/docker-actions-toolkit/bake-metadata.json";
   "--load"; "app"] =
    "bake" :: source_args (inputs_with ["fs=*"] "" ["app"])
    ++ flag_pairs "--allow" (["fs=*"] ++ ["fs=*"])
    ++ call_args (inputs_with ["fs=*"] "" ["app"])
    ++ file_set_metadata_args (toolkit_at (mkVersion 0 18 0))
         (inputs_with ["fs=*"] "" ["app"])
    ++ provenance_args exporter_flag true (toolkit_at (mkVersion 0 18 0))
         (ambient_with (Some (Some false)) None) (inputs_with ["fs=*"] "" ["app"])
    ++ sbom_args (toolkit_at (mkVersion 0 18 0)) (inputs_with ["fs=*"] "" ["app"])
    ++ getCommonArgs (inputs_with ["fs=*"] "" ["app"])
    ++ targets (inputs_with ["fs=*"] "" ["app"]) /\
  count_occ string_dec (["fs=*"] ++ ["fs=*"]) "fs=*" =
    S (count_occ string_dec ["fs=*"] "fs=*") /\
  (~ In "fs=*" ["fs=*"] -> count_occ string_dec (["fs=*"] ++ ["fs=*"]) "fs=*" = 1).
Proof.
  apply (getArgs_allow_fs_appended exporter_flag true
           (toolkit_at (mkVersion 0 18 0))
           (ambient_with (Some (Some false)) None)
           (inputs_with ["fs=*"] "" ["app"])).
  - reflexivity.
  - vm_compute. reflexivity.
Defined.

(** C5 (as stated): below Buildx 0.17.0 the token [--allow] appears nowhere
    in the output.  It does when a user value is that string, here a target. *)
Lemma allow_token_from_target_counterexample :
  exists out,
    buildx_versionSatisfies (toolkit_at (mkVersion 0 16 0)) v0_17_0 = false /\
    snd (getArgs exporter_flag true (toolkit_at (mkVersion 0 16 0))
           (ambient_with (Some (Some false)) None)
           (inputs_with ["network.host"] "" ["--allow"])) = Ok out /\
    out = ["bake"; "--file"; "docker-bake.hcl";
           "--metadata-file"; "/tmp/docker-actions-toolkit/bake-metadata.json";
           "--load"; "--allow"] /\
    In "--allow" out.
Proof.
  eexists. split; [reflexivity|]. split; [vm_compute; reflexivity|].
  split; [reflexivity | simpl; tauto].
Defined.

(** C5 (amended): below Buildx 0.17.0 [getArgs] leaves the record unchanged
    (in particular [allow]) and its result is the one for the same record
    with an empty [allow] list: the [allow] entries produce no token. *)
Theorem getArgs_allow_ignored_below_0_17 {BakeDefinition : Type}
  (hasDockerExporter : BakeDefinition -> bool -> bool) (d : BakeDefinition)
  (tk : Toolkit) (amb : Ambient) (i : Inputs)
  (Hne : allow i <> [])
  (H17 : buildx_versionSatisfies tk v0_17_0 = false) :
  fst (getArgs hasDockerExporter d tk amb i) = i /\
  snd (getArgs hasDockerExporter d tk amb i) =
    snd (getArgs hasDockerExporter d tk amb (with_allow [] i)).
Proof.
  rewrite !getArgs_normal_form. simpl.
  unfold state_after. rewrite H17. simpl. split; [reflexivity|].
  unfold args_before_attestations, allow_args. rewrite H17. reflexivity.
Qed.

Lemma getArgs_allow_ignored_below_0_17_witness :
  fst (getArgs exporter_flag true (toolkit_at (mkVersion 0 16 0))
         (ambient_with (Some (Some false)) None)
         (inputs_with ["network.host"] "" ["app"])) =
    inputs_with ["network.host"] "" ["app"] /\
  snd (getArgs exporter_flag true (toolkit_at (mkVersion 0 16 0))
         (ambient_with (Some (Some false)) None)
         (inputs_with ["network.host"] "" ["app"])) =
    snd (getArgs exporter_flag true (toolkit_at (mkVersion 0 16 0))
           (ambient_with (Some (Some false)) None)
           (with_allow [] (inputs_with ["network.host"] "" ["app"]))).
Proof.
  apply (getArgs_allow_ignored_below_0_17 exporter_flag true
           (toolkit_at (mkVersion 0 16 0))
           (ambient_with (Some (Some false)) None)
           (inputs_with ["network.host"] "" ["app"])).
  - discriminate.
  - reflexivity.
Defined.

(** C6: with an empty [provenance] and Buildx at least 0.10.0, a successful
    [getArgs] has read the opt-out without a throw, and emits, after the
    arguments that precede the attestation block, a default [--provenance]
    pair exactly when the opt-out reads [false], BuildKit
    is at least 0.11.0 and the definition does not use the docker exporter
    under [load]; its value resolves [mode=min,inline-only=true] for a
    private repository and [mode=max] for a public one or an unknown
    visibility.  With the opt-out set no default pair is emitted whatever the
    visibility. *)
Theorem getArgs_default_provenance {BakeDefinition : Type}
  (hasDockerExporter : BakeDefinition -> bool -> bool) (d : BakeDefinition)
  (tk : Toolkit) (amb : Ambient) (i : Inputs) (out : list string)
  (Hprov : provenance i = "")
  (H10 : buildx_versionSatisfies tk v0_10_0 = true)
  (Hok : snd (getArgs hasDockerExporter d tk amb i) = Ok out) :
  exists nda,
    noDefaultAttestations amb = Ok nda /\
    out = args_before_attestations tk i
          ++ (if negb nda
                 && buildkit_versionSatisfies tk (builder i) v0_11_0
                 && negb (hasDockerExporter d (load i))
              then ["--provenance";
                    resolveProvenanceAttrs amb
                      (match repository_private amb with
                       | Some (Some true) => "mode=min,inline-only=true"
                       | _ => "mode=max"
                       end)]
              else [])
          ++ sbom_args tk i ++ getCommonArgs i ++ targets i /\
    (nda = true ->
       out = args_before_attestations tk i
             ++ sbom_args tk i ++ getCommonArgs i ++ targets i).
Proof.
  rewrite getArgs_normal_form in Hok. simpl in Hok.
  destruct (truthy (call i) && negb (buildx_versionSatisfies tk v0_16_0));
    try destruct (attestation_error tk amb i) eqn:Hatt;
    inversion Hok; subst; clear Hok.
  unfold attestation_error in Hatt. rewrite H10, Hprov in Hatt. simpl in Hatt.
  destruct (noDefaultAttestations amb) as [nda|e] eqn:Hn; [|discriminate].
  exists nda. split; [reflexivity|].
  unfold provenance_args, default_provenance_args, default_provenance_gate,
    opt_out.
  rewrite H10, Hprov, Hn. simpl.
  assert (Hvis : repo_private amb =
                 match repository_private amb with
                 | Some (Some true) => true
                 | _ => false
                 end).
  { unfold repo_private. destruct (repository_private amb) as [[[|]|]|];
      reflexivity. }
  split.
  - rewrite Hvis.
    destruct (repository_private amb) as [[[|]|]|]; reflexivity.
  - intros Hopt. rewrite Hopt. reflexivity.
Qed.

Lemma getArgs_default_provenance_witness :
  exists nda,
    noDefaultAttestations (ambient_with (Some (Some true)) (Some "false"))
      = Ok nda /\
    ["bake"; "--allow"; "fs=*"; "--file"; "docker-bake.hcl";
     "--metadata-file"; "/tmp/docker-actions-toolkit/bake-metadata.json";
     "--provenance"; "mode=min,inline-only=true"; "app"] =
      args_before_attestations (toolkit_at (mkVersion 0 18 0))
        (with_load false (example_inputs "."))
      ++ (if negb nda
             && buildkit_versionSatisfies (toolkit_at (mkVersion 0 18 0))
                  (builder (with_load false (example_inputs "."))) v0_11_0
             && negb (exporter_flag true
                        (load (with_load false (example_inputs "."))))
          then ["--provenance";
                resolveProvenanceAttrs
                  (ambient_with (Some (Some true)) (Some "false"))
                  (match repository_private
                           (ambient_with (Some (Some true)) (Some "false")) with
                   | Some (Some true) => "mode=min,inline-only=true"
                   | _ => "mode=max"
                   end)]
          else [])
      ++ sbom_args (toolkit_at (mkVersion 0 18 0))
           (with_load false (example_inputs "."))
      ++ getCommonArgs (with_load false (example_inputs "."))
      ++ targets (with_load false (example_inputs ".")) /\
    (nda = true ->
     ["bake"; "--allow"; "fs=*"; "--file"; "docker-bake.hcl";
      "--metadata-file"; "/tmp/docker-actions-toolkit/bake-metadata.json";
      "--provenance"; "mode=min,inline-only=true"; "app"] =
       args_before_attestations (toolkit_at (mkVersion 0 18 0))
         (with_load false (example_inputs "."))
       ++ sbom_args (toolkit_at (mkVersion 0 18 0))
            (with_load false (example_inputs "."))
       ++ getCommonArgs (with_load false (example_inputs "."))
       ++ targets (with_load false (example_inputs "."))).
Proof.
  apply (getArgs_default_provenance exporter_flag true
           (toolkit_at (mkVersion 0 18 0))
           (ambient_with (Some (Some true)) (Some "false"))
           (with_load false (example_inputs "."))).
  - reflexivity.
  - reflexivity.
  - vm_compute. reflexivity.
Defined.

(** C7: source resolution.  When the rendered template, or the ambient
    context it falls back to, is the literal [.], the source is the empty
    string, and a record with an empty source gets no positional source
    token after [bake]; when the rendered template is empty the ambient
    context is used instead, itself normalised from [.] to empty. *)
Theorem getSourceInput_dot_and_fallback :
  (forall (render : string -> string -> result string) (raw ctx rendered : string),
     render raw ctx = Ok rendered ->
     (if String.eqb rendered "" then ctx else rendered) = "." ->
     getSourceInput render raw ctx = Ok "") /\
  (forall (render : string -> string -> result string) (raw ctx : string),
     render raw ctx = Ok "" ->
     getSourceInput render raw ctx = Ok (if String.eqb ctx "." then "" else ctx)) /\
  (forall (BakeDefinition : Type)
          (hasDockerExporter : BakeDefinition -> bool -> bool)
          (d : BakeDefinition) (tk : Toolkit) (amb : Ambient) (i : Inputs)
          (out : list string),
     source i = "" ->
     snd (getBakeArgs hasDockerExporter d tk amb i) = Ok out ->
     out = "bake" :: allow_args tk i ++ call_args i ++ file_set_metadata_args tk i
           ++ provenance_args hasDockerExporter d tk amb i ++ sbom_args tk i).
Proof.
  split; [| split].
  - intros render raw ctx rendered Hr Hdot. unfold getSourceInput.
    rewrite Hr. unfold truthy.
    destruct (String.eqb rendered "") eqn:He; simpl;
      rewrite Hdot; reflexivity.
  - intros render raw ctx Hr. unfold getSourceInput. rewrite Hr. reflexivity.
  - intros BD hde d tk amb i out Hs Hok.
    rewrite getBakeArgs_normal_form in Hok. simpl in Hok.
    destruct (truthy (call i) && negb (buildx_versionSatisfies tk v0_16_0));
      try destruct (attestation_error tk amb i) eqn:Hatt;
      inversion Hok; subst; clear Hok.
    unfold args_before_attestations, source_args. rewrite Hs. simpl.
    repeat rewrite <- app_assoc. reflexivity.
Qed.

(** C8 (as stated): a template whose evaluation fails falls back to the
    ambient context.  It does not: the parse error of an unclosed [{{] is
    thrown out of [getSourceInput]. *)
Lemma source_render_error_counterexample :
  exists e,
    handlebars_render "{{defaultContext" "https://github.com/o/r.git#main" =
      Error e /\
    getSourceInput handlebars_render "{{defaultContext"
      "https://github.com/o/r.git#main" = Error e.
Proof. eexists. split; vm_compute; reflexivity. Defined.

(** C8 (amended): a template evaluation failure is not caught by source
    resolution: [getSourceInput] fails with the same error. *)
Theorem getSourceInput_propagates_render_error
  (render : string -> string -> result string) (raw ctx e : string)
  (Hr : render raw ctx = Error e) :
  getSourceInput render raw ctx = Error e.
Proof. unfold getSourceInput. rewrite Hr. reflexivity. Qed.

Lemma getSourceInput_propagates_render_error_witness :
  handlebars_render "{{defaultContext" "." = Error "Parse error: unclosed mustache" /\
  getSourceInput handlebars_render "{{defaultContext" "." =
    Error "Parse error: unclosed mustache".
Proof.
  split; [vm_compute; reflexivity|].
  apply getSourceInput_propagates_render_error. vm_compute. reflexivity.
Defined.

(** C9: synthesis is not idempotent on the shared record: from Buildx
    0.18.0 on, calling [getArgs] a second time on the record left by the
    first call yields another result, with [fs=*] twice among the [--allow]
    values. *)
Theorem getArgs_not_idempotent :
  exists (i : Inputs) (tk : Toolkit) (out1 out2 : list string),
    buildx_versionSatisfies tk v0_18_0 = true /\
    snd (getArgs exporter_flag true tk (ambient_with (Some (Some false)) None) i)
      = Ok out1 /\
    snd (getArgs exporter_flag true tk (ambient_with (Some (Some false)) None)
           (fst (getArgs exporter_flag true tk
                   (ambient_with (Some (Some false)) None) i))) = Ok out2 /\
    count_occ string_dec (flag_values "--allow" out1) "fs=*" = 1 /\
    count_occ string_dec (flag_values "--allow" out2) "fs=*" = 2 /\
    out1 <> out2.
Proof.
  exists (inputs_with [] "" ["app"]), (toolkit_at (mkVersion 0 18 0)).
  do 2 eexists.
  split; [reflexivity|].
  split; [vm_compute; reflexivity|].
  split; [vm_compute; reflexivity|].
  split; [reflexivity|]. split; [reflexivity|].
  discriminate.
Qed.

(** ** Further properties of the code *)

Lemma buildx_mono (tk : Toolkit) (c1 c2 : version) :
  version_ge c1 c2 = true ->
  buildx_versionSatisfies tk c1 = true -> buildx_versionSatisfies tk c2 = true.
Proof. intros H12 H1. exact (version_ge_trans _ _ _ H1 H12). Qed.

Lemma buildx_below (tk : Toolkit) (c1 c2 : version) :
  version_ge c1 c2 = true ->
  buildx_versionSatisfies tk c2 = false -> buildx_versionSatisfies tk c1 = false.
Proof.
  intros H12 H2. destruct (buildx_versionSatisfies tk c1) eqn:H1; [|reflexivity].
  rewrite (buildx_mono tk c1 c2 H12 H1) in H2. discriminate.
Qed.

(** [getArgs] fails for one of two reasons. Either [call] is set on a
    Buildx below 0.16.0, hence below 0.18.0: the message is the one thrown
    for [call] and the record is untouched. Or Buildx is at least 0.10.0,
    [provenance] is empty and reading BUILDX_NO_DEFAULT_ATTESTATIONS throws
    that very error: [fs=*] has then already been pushed when Buildx is at
    least 0.18.0. *)
Theorem getArgs_error_keeps_record {BakeDefinition : Type}
  (hasDockerExporter : BakeDefinition -> bool -> bool) (d : BakeDefinition)
  (tk : Toolkit) (amb : Ambient) (i : Inputs) (e : string)
  (Herr : snd (getArgs hasDockerExporter d tk amb i) = Error e) :
  (fst (getArgs hasDockerExporter d tk amb i) = i /\
   e = "Buildx >= 0.16.0 is required to use the call flag." /\
   call i <> "")
  \/
  (buildx_versionSatisfies tk v0_10_0 = true /\
   provenance i = "" /\
   noDefaultAttestations amb = Error e /\
   fst (getArgs hasDockerExporter d tk amb i) =
     (if buildx_versionSatisfies tk v0_18_0 then push_allow "fs=*" i else i)).
Proof.
  rewrite getArgs_normal_form in *. simpl in *. rewrite state_after_18.
  destruct (truthy (call i) && negb (buildx_versionSatisfies tk v0_16_0))
    eqn:Hcall; simpl in Herr.
  - left. inversion Herr; subst.
    apply andb_true_iff in Hcall. destruct Hcall as [Hc H16].
    apply negb_true_iff in H16.
    rewrite (buildx_below tk v0_18_0 v0_16_0 eq_refl H16).
    split; [reflexivity | split; [reflexivity|]].
    apply truthy_true_iff. exact Hc.
  - right. destruct (attestation_error tk amb i) eqn:Hatt; [|discriminate].
    inversion Herr; subst. unfold attestation_error in Hatt.
    destruct (buildx_versionSatisfies tk v0_10_0) eqn:H10;
      destruct (truthy (provenance i)) eqn:Hp; simpl in Hatt; try discriminate.
    destruct (noDefaultAttestations amb); inversion Hatt; subst.
    repeat split; try reflexivity. apply truthy_false_iff. exact Hp.
Qed.

Lemma getArgs_error_keeps_record_witness :
  (fst (getArgs exporter_flag true (toolkit_at (mkVersion 0 18 0))
          (ambient_with None (Some "yes")) (inputs_with [] "" ["app"])) =
     inputs_with [] "" ["app"] /\
   "parseBool syntax error: yes" =
     "Buildx >= 0.16.0 is required to use the call flag." /\
   call (inputs_with [] "" ["app"]) <> "")
  \/
  (buildx_versionSatisfies (toolkit_at (mkVersion 0 18 0)) v0_10_0 = true /\
   provenance (inputs_with [] "" ["app"]) = "" /\
   noDefaultAttestations (ambient_with None (Some "yes"))
     = Error "parseBool syntax error: yes" /\
   fst (getArgs exporter_flag true (toolkit_at (mkVersion 0 18 0))
          (ambient_with None (Some "yes")) (inputs_with [] "" ["app"])) =
     (if buildx_versionSatisfies (toolkit_at (mkVersion 0 18 0)) v0_18_0
      then push_allow "fs=*" (inputs_with [] "" ["app"])
      else inputs_with [] "" ["app"])).
Proof.
  apply (getArgs_error_keeps_record exporter_flag true
           (toolkit_at (mkVersion 0 18 0)) (ambient_with None (Some "yes"))
           (inputs_with [] "" ["app"])).
  vm_compute. reflexivity.
Defined.

(** An explicit [provenance] value is passed as it is, whatever the opt-out,
    the BuildKit version, the exporter or the repository visibility. *)
Theorem getArgs_explicit_provenance {BakeDefinition : Type}
  (hasDockerExporter : BakeDefinition -> bool -> bool) (d : BakeDefinition)
  (tk : Toolkit) (amb : Ambient) (i : Inputs) (out : list string)
  (Hp : provenance i <> "")
  (H10 : buildx_versionSatisfies tk v0_10_0 = true)
  (Hok : snd (getArgs hasDockerExporter d tk amb i) = Ok out) :
  out = args_before_attestations tk i ++ ["--provenance"; provenance i]
        ++ sbom_args tk i ++ getCommonArgs i ++ targets i.
Proof.
  rewrite getArgs_normal_form in Hok. simpl in Hok.
  destruct (truthy (call i) && negb (buildx_versionSatisfies tk v0_16_0));
    try destruct (attestation_error tk amb i) eqn:Hatt;
    inversion Hok; subst; clear Hok.
  unfold provenance_args. apply truthy_true_iff in Hp. rewrite H10, Hp.
  reflexivity.
Qed.

Lemma getArgs_explicit_provenance_witness :
  ["bake"; "--allow"; "fs=*"; "--file"; "docker-bake.hcl";
   "--metadata-file"; "/tmp/docker-actions-toolkit/bake-metadata.json";
   "--provenance"; "mode=min"; "--load"; "app"] =
  args_before_attestations (toolkit_at (mkVersion 0 18 0))
    (with_provenance_sbom "mode=min" "" (example_inputs "."))
  ++ ["--provenance"; "mode=min"]
  ++ sbom_args (toolkit_at (mkVersion 0 18 0))
       (with_provenance_sbom "mode=min" "" (example_inputs "."))
  ++ getCommonArgs (with_provenance_sbom "mode=min" "" (example_inputs "."))
  ++ targets (with_provenance_sbom "mode=min" "" (example_inputs ".")).
Proof.
  apply (getArgs_explicit_provenance exporter_flag false
           (toolkit_at (mkVersion 0 18 0))
           (ambient_with (Some (Some true)) (Some "true"))
           (with_provenance_sbom "mode=min" "" (example_inputs "."))).
  - discriminate.
  - reflexivity.
  - vm_compute. reflexivity.
Defined.

(** Below Buildx 0.10.0 the attestation block is skipped: neither an
    explicit [provenance] or [sbom] nor a default provenance is emitted. *)
Theorem getArgs_no_attestations_below_0_10 {BakeDefinition : Type}
  (hasDockerExporter : BakeDefinition -> bool -> bool) (d : BakeDefinition)
  (tk : Toolkit) (amb : Ambient) (i : Inputs) (out : list string)
  (H10 : buildx_versionSatisfies tk v0_10_0 = false)
  (Hok : snd (getArgs hasDockerExporter d tk amb i) = Ok out) :
  out = args_before_attestations tk i ++ getCommonArgs i ++ targets i.
Proof.
  rewrite getArgs_normal_form in Hok. simpl in Hok.
  destruct (truthy (call i) && negb (buildx_versionSatisfies tk v0_16_0));
    try destruct (attestation_error tk amb i) eqn:Hatt;
    inversion Hok; subst; clear Hok.
  unfold provenance_args, sbom_args. rewrite H10. reflexivity.
Qed.

Lemma getArgs_no_attestations_below_0_10_witness :
  ["bake"; "--file"; "docker-bake.hcl";
   "--metadata-file"; "/tmp/docker-actions-toolkit/bake-metadata.json";
   "--load"; "app"] =
  args_before_attestations (toolkit_at (mkVersion 0 9 1))
    (with_provenance_sbom "mode=max" "true" (example_inputs "."))
  ++ getCommonArgs (with_provenance_sbom "mode=max" "true" (example_inputs "."))
  ++ targets (with_provenance_sbom "mode=max" "true" (example_inputs ".")).
Proof.
  apply (getArgs_no_attestations_below_0_10 exporter_flag false
           (toolkit_at (mkVersion 0 9 1)) (ambient_with None None)
           (with_provenance_sbom "mode=max" "true" (example_inputs "."))).
  - reflexivity.
  - vm_compute. reflexivity.
Defined.

(** On a Buildx below 0.6.0 every gated block is skipped: the output is
    [bake], the source, the [--file] and [--set] pairs, the common
    arguments and the targets, and a non-empty [call] makes it fail; the
    record is left as it is. *)
Theorem getArgs_below_0_6 {BakeDefinition : Type}
  (hasDockerExporter : BakeDefinition -> bool -> bool) (d : BakeDefinition)
  (tk : Toolkit) (amb : Ambient) (i : Inputs)
  (H6 : buildx_versionSatisfies tk v0_6_0 = false) :
  getArgs hasDockerExporter d tk amb i =
  (i, if truthy (call i)
      then Error "Buildx >= 0.16.0 is required to use the call flag."
      else Ok ("bake" :: source_args i ++ flag_pairs "--file" (files i)
               ++ flag_pairs "--set" (set i) ++ getCommonArgs i ++ targets i)).
Proof.
  rewrite getArgs_normal_form.
  pose proof (buildx_below tk v0_10_0 v0_6_0 eq_refl H6) as H10.
  pose proof (buildx_below tk v0_16_0 v0_6_0 eq_refl H6) as H16.
  pose proof (buildx_below tk v0_17_0 v0_6_0 eq_refl H6) as H17.
  pose proof (buildx_below tk v0_18_0 v0_6_0 eq_refl H6) as H18.
  rewrite state_after_18, H18, H16.
  destruct (truthy (call i)) eqn:Hc; simpl; [reflexivity|].
  unfold attestation_error, args_before_attestations, allow_args, call_args,
    file_set_metadata_args, provenance_args, sbom_args.
  rewrite H17, Hc, H6, H10. simpl.
  rewrite !app_nil_r. repeat rewrite <- app_assoc. reflexivity.
Qed.

Lemma getArgs_below_0_6_witness :
  getArgs exporter_flag false (toolkit_at (mkVersion 0 5 9))
    (ambient_with None None) (inputs_with ["fs=*"] "" ["app"]) =
  (inputs_with ["fs=*"] "" ["app"],
   if truthy (call (inputs_with ["fs=*"] "" ["app"]))
   then Error "Buildx >= 0.16.0 is required to use the call flag."
   else Ok ("bake" :: source_args (inputs_with ["fs=*"] "" ["app"])
            ++ flag_pairs "--file" (files (inputs_with ["fs=*"] "" ["app"]))
            ++ flag_pairs "--set" (set (inputs_with ["fs=*"] "" ["app"]))
            ++ getCommonArgs (inputs_with ["fs=*"] "" ["app"])
            ++ targets (inputs_with ["fs=*"] "" ["app"]))).
Proof.
  apply (getArgs_below_0_6 exporter_flag false (toolkit_at (mkVersion 0 5 9))
           (ambient_with None None) (inputs_with ["fs=*"] "" ["app"])).
  reflexivity.
Defined.

(** Below Buildx 0.18.0 synthesis is idempotent on the shared record: a
    second call on the record left by the first returns the same record and
    the same result. *)
Theorem getArgs_idempotent_below_0_18 {BakeDefinition : Type}
  (hasDockerExporter : BakeDefinition -> bool -> bool) (d : BakeDefinition)
  (tk : Toolkit) (amb : Ambient) (i : Inputs)
  (H18 : buildx_versionSatisfies tk v0_18_0 = false) :
  getArgs hasDockerExporter d tk amb (fst (getArgs hasDockerExporter d tk amb i))
  = getArgs hasDockerExporter d tk amb i.
Proof.
  assert (Hfst : fst (getArgs hasDockerExporter d tk amb i) = i).
  { rewrite getArgs_normal_form. simpl. rewrite state_after_18, H18.
    reflexivity. }
  rewrite Hfst. reflexivity.
Qed.

Lemma getArgs_idempotent_below_0_18_witness :
  getArgs exporter_flag false (toolkit_at (mkVersion 0 17 2))
    (ambient_with None None)
    (fst (getArgs exporter_flag false (toolkit_at (mkVersion 0 17 2))
            (ambient_with None None) (inputs_with ["network.host"] "" ["app"])))
  = getArgs exporter_flag false (toolkit_at (mkVersion 0 17 2))
      (ambient_with None None) (inputs_with ["network.host"] "" ["app"]).
Proof.
  apply (getArgs_idempotent_below_0_18 exporter_flag false
           (toolkit_at (mkVersion 0 17 2)) (ambient_with None None)).
  reflexivity.
Defined.

(** [getArgs] never reads [workdir] nor [github-token]: changing them
    changes neither the result nor the other fields of the record left. *)
Theorem getArgs_ignores_workdir_and_token {BakeDefinition : Type}
  (hasDockerExporter : BakeDefinition -> bool -> bool) (d : BakeDefinition)
  (tk : Toolkit) (amb : Ambient) (i : Inputs) (wd tok : string) :
  snd (getArgs hasDockerExporter d tk amb (with_workdir_token wd tok i)) =
    snd (getArgs hasDockerExporter d tk amb i) /\
  fst (getArgs hasDockerExporter d tk amb (with_workdir_token wd tok i)) =
    with_workdir_token wd tok (fst (getArgs hasDockerExporter d tk amb i)).
Proof.
  rewrite !getArgs_normal_form. simpl.
  unfold source_args, allow_args, call_args, file_set_metadata_args,
    provenance_args, default_provenance_args, default_provenance_gate,
    sbom_args.
  rewrite !state_after_18.
  destruct (buildx_versionSatisfies tk v0_18_0); split; reflexivity.
Qed.

(** The [--flag value] pairs pushed by a [Util.asyncForEach] loop read back,
    pair by pair, as the list they were pushed from, in order; they are two
    tokens per entry. *)
Theorem flag_pairs_roundtrip (flag : string) (xs : list string) :
  flag_values flag (flag_pairs flag xs) = xs /\
  length (flag_pairs flag xs) = 2 * length xs.
Proof.
  induction xs as [|x xs [IH1 IH2]]; [split; reflexivity|].
  simpl. rewrite String.eqb_refl, IH1. split; [reflexivity | lia].
Qed.

(** [getSourceInput] never returns [.]: when it succeeds the result is the
    rendered template if that is neither empty nor [.], and otherwise the
    normalised ambient context or the empty string. *)
Theorem getSourceInput_never_dot
  (render : string -> string -> result string) (raw ctx s : string)
  (Hs : getSourceInput render raw ctx = Ok s) :
  s <> "." /\
  exists rendered, render raw ctx = Ok rendered /\
    (s = rendered \/ s = ctx \/ s = "") /\
    (rendered <> "" -> rendered <> "." -> s = rendered).
Proof.
  unfold getSourceInput in Hs.
  destruct (render raw ctx) as [rendered|e]; [|discriminate].
  injection Hs as Hs. unfold truthy in Hs. rewrite negb_involutive in Hs.
  destruct (String.eqb rendered "") eqn:He;
    [destruct (String.eqb ctx ".") eqn:Hd
    |destruct (String.eqb rendered ".") eqn:Hd];
    subst s;
    (split; [ try discriminate; apply String.eqb_neq; assumption
            | exists rendered; split; [reflexivity|] ]);
    (split; [tauto
            | intros; first [ reflexivity
                            | apply String.eqb_eq in He; contradiction
                            | apply String.eqb_eq in Hd; contradiction ]]).
Qed.

Lemma getSourceInput_never_dot_witness :
  "https://github.com/o/r.git#main:sub" <> "." /\
  exists rendered,
    handlebars_render "{{defaultContext}}:sub" "https://github.com/o/r.git#main"
      = Ok rendered /\
    ("https://github.com/o/r.git#main:sub" = rendered \/
     "https://github.com/o/r.git#main:sub" = "https://github.com/o/r.git#main" \/
     "https://github.com/o/r.git#main:sub" = "") /\
    (rendered <> "" -> rendered <> "." ->
     "https://github.com/o/r.git#main:sub" = rendered).
Proof.
  apply (getSourceInput_never_dot handlebars_render "{{defaultContext}}:sub").
  vm_compute. reflexivity.
Defined.

Lemma getInputs_ok_inv (env : ActionEnv) (i : Inputs) :
  getInputs env = Ok i ->
  getSourceInput (render env) (getInput env "source") (gitContext env)
    = Ok (source i) /\
  getBooleanInput env "no-cache" = Ok (no_cache i) /\
  getBooleanInput env "pull" = Ok (pull i) /\
  getBooleanInput env "load" = Ok (load i) /\
  getBooleanInput env "push" = Ok (push i) /\
  workdir i = (if truthy (getInput env "workdir")
               then getInput env "workdir" else ".").
Proof.
  unfold getInputs.
  repeat (match goal with
          | |- context [rbind ?r _] => destruct r eqn:?
          end; simpl); intros H; inversion H; subst; clear H;
  repeat split; assumption.
Qed.

Lemma getBooleanInput_ok (env : ActionEnv) (name : string) (b : bool) :
  getBooleanInput env name = Ok b ->
  (b = true <-> In (getInput env name) ["true"; "True"; "TRUE"]).
Proof.
  unfold getBooleanInput.
  destruct (existsb (String.eqb (getInput env name)) ["true"; "True"; "TRUE"])
    eqn:Ht; [intros H; inversion H; subst|].
  - split; [intros _ | reflexivity].
    apply existsb_exists in Ht. destruct Ht as [x [Hx Heq]].
    apply String.eqb_eq in Heq. subst. exact Hx.
  - destruct (existsb (String.eqb (getInput env name))
                ["false"; "False"; "FALSE"]); intros H; inversion H; subst.
    split; [discriminate|]. intros Hin.
    assert (Hx : existsb (String.eqb (getInput env name))
                   ["true"; "True"; "TRUE"] = true).
    { apply existsb_exists. exists (getInput env name).
      split; [exact Hin | apply String.eqb_refl]. }
    rewrite Hx in Ht. discriminate.
Qed.

(** A successful [getInputs] yields a non-empty [workdir] (the input, or
    [.] when it is empty), a [source] that is never [.], and boolean fields
    that are true exactly when their input is spelt [true], [True] or
    [TRUE]. *)
Theorem getInputs_normalised (env : ActionEnv) (i : Inputs)
  (Hok : getInputs env = Ok i) :
  workdir i <> "" /\
  (getInput env "workdir" = "" -> workdir i = ".") /\
  (getInput env "workdir" <> "" -> workdir i = getInput env "workdir") /\
  source i <> "." /\
  (no_cache i = true <-> In (getInput env "no-cache") ["true"; "True"; "TRUE"]) /\
  (pull i = true <-> In (getInput env "pull") ["true"; "True"; "TRUE"]) /\
  (load i = true <-> In (getInput env "load") ["true"; "True"; "TRUE"]) /\
  (push i = true <-> In (getInput env "push") ["true"; "True"; "TRUE"]).
Proof.
  destruct (getInputs_ok_inv env i Hok) as [Hs [Hn [Hp [Hl [Hu Hw]]]]].
  split; [| split; [| split; [| split; [| split; [| split; [| split]]]]]].
  - rewrite Hw. destruct (truthy (getInput env "workdir")) eqn:Ht;
      [apply truthy_true_iff; exact Ht | discriminate].
  - intros He. rewrite Hw. apply truthy_false_iff in He. rewrite He.
    reflexivity.
  - intros He. rewrite Hw. apply truthy_true_iff in He. rewrite He.
    reflexivity.
  - exact (proj1 (getSourceInput_never_dot _ _ _ _ Hs)).
  - exact (getBooleanInput_ok env _ _ Hn).
  - exact (getBooleanInput_ok env _ _ Hp).
  - exact (getBooleanInput_ok env _ _ Hl).
  - exact (getBooleanInput_ok env _ _ Hu).
Qed.

Lemma getInputs_normalised_witness :
  exists i,
    getInputs (env_of [("source", "."); ("load", "True"); ("no-cache", "false");
                       ("pull", "FALSE"); ("push", "false");
                       ("targets", "app")] "https://github.com/o/r.git") = Ok i /\
    (workdir i <> "" /\
     (getInput (env_of [("source", "."); ("load", "True"); ("no-cache", "false");
                        ("pull", "FALSE"); ("push", "false");
                        ("targets", "app")] "https://github.com/o/r.git")
        "workdir" = "" -> workdir i = ".") /\
     (getInput (env_of [("source", "."); ("load", "True"); ("no-cache", "false");
                        ("pull", "FALSE"); ("push", "false");
                        ("targets", "app")] "https://github.com/o/r.git")
        "workdir" <> "" ->
      workdir i = getInput (env_of [("source", "."); ("load", "True");
                                    ("no-cache", "false"); ("pull", "FALSE");
                                    ("push", "false"); ("targets", "app")]
                                   "https://github.com/o/r.git") "workdir") /\
     source i <> "." /\
     (no_cache i = true <->
      In (getInput (env_of [("source", "."); ("load", "True");
                            ("no-cache", "false"); ("pull", "FALSE");
                            ("push", "false"); ("targets", "app")]
                           "https://github.com/o/r.git") "no-cache")
         ["true"; "True"; "TRUE"]) /\
     (pull i = true <->
      In (getInput (env_of [("source", "."); ("load", "True");
                            ("no-cache", "false"); ("pull", "FALSE");
                            ("push", "false"); ("targets", "app")]
                           "https://github.com/o/r.git") "pull")
         ["true"; "True"; "TRUE"]) /\
     (load i = true <->
      In (getInput (env_of [("source", "."); ("load", "True");
                            ("no-cache", "false"); ("pull", "FALSE");
                            ("push", "false"); ("targets", "app")]
                           "https://github.com/o/r.git") "load")
         ["true"; "True"; "TRUE"]) /\
     (push i = true <->
      In (getInput (env_of [("source", "."); ("load", "True");
                            ("no-cache", "false"); ("pull", "FALSE");
                            ("push", "false"); ("targets", "app")]
                           "https://github.com/o/r.git") "push")
         ["true"; "True"; "TRUE"])).
Proof.
  eexists. split; [vm_compute; reflexivity|].
  apply getInputs_normalised. vm_compute. reflexivity.
Defined.

(** [getInputs] throws when one of [no-cache], [pull], [load] or [push] is
    not one of the six YAML 1.2 boolean spellings. *)
Theorem getInputs_rejects_bad_boolean (env : ActionEnv) (name : string)
  (Hname : In name ["no-cache"; "pull"; "load"; "push"])
  (Hbad : negb (existsb (String.eqb (getInput env name))
                  ["true"; "True"; "TRUE"; "false"; "False"; "FALSE"]) = true) :
  exists e, getInputs env = Error e.
Proof.
  destruct (getInputs env) as [i|e] eqn:Hg; [|eexists; reflexivity].
  exfalso.
  destruct (getInputs_ok_inv env i Hg) as [_ [Hn [Hp [Hl [Hu _]]]]].
  assert (Hb : forall b, getBooleanInput env name <> Ok b).
  { intros b. unfold getBooleanInput. simpl in Hbad |- *.
    destruct (String.eqb (getInput env name) "true");
    destruct (String.eqb (getInput env name) "True");
    destruct (String.eqb (getInput env name) "TRUE");
    destruct (String.eqb (getInput env name) "false");
    destruct (String.eqb (getInput env name) "False");
    destruct (String.eqb (getInput env name) "FALSE");
    simpl in *; discriminate. }
  destruct Hname as [<-|[<-|[<-|[<-|[]]]]];
    [exact (Hb _ Hn) | exact (Hb _ Hp) | exact (Hb _ Hl) | exact (Hb _ Hu)].
Qed.

Lemma getInputs_rejects_bad_boolean_witness :
  exists e,
    getInputs (env_of [("load", "yes"); ("no-cache", "false");
                       ("pull", "false"); ("push", "false")] ".") = Error e.
Proof.
  apply (getInputs_rejects_bad_boolean
           (env_of [("load", "yes"); ("no-cache", "false");
                    ("pull", "false"); ("push", "false")] ".") "load").
  - simpl. tauto.
  - vm_compute. reflexivity.
Defined.
